(** * Dataset-builder registration (tensorflow_datasets/core/registered.py)

    A shallow embedding of the metaclass [RegisteredDataset], the three
    module-level registries and the [skip_registration] context manager,
    followed by the properties of the registration mechanism. *)

From Stdlib Require Import ZArith Ascii String.
From stdpp Require Import gmap strings list fin_maps.

#[local] Set Warnings "-register-all".
Open Scope string_scope.

(** ** Python values and class objects *)

(** The values a class body binds its names to.  A function carries the
    [__isabstractmethod__] flag that [abc.abstractmethod] sets. *)
Inductive value :=
  | VNone
  | VBool (b : bool)
  | VInt (z : Z)
  | VStr (s : string)
  | VFunc (code : string) (isabstractmethod : bool).

(** Truth value of an object, as [if x:] tests it. *)
Definition truthy (v : value) : bool :=
  match v with
  | VNone => false
  | VBool b => b
  | VInt z => negb (z =? 0)%Z
  | VStr s => negb (String.eqb s "")
  | VFunc _ _ => true
  end.

(** [getattr(value, "__isabstractmethod__", False)]. *)
Definition isabstractmethod (v : value) : bool :=
  match v with
  | VFunc _ flag => flag
  | _ => false
  end.

#[export] Instance value_eq_dec : EqDecision value.
Proof. solve_decision. Defined.

(** A class object: its [__name__], its bases, its own [__dict__] and the
    [__abstractmethods__] set that [abc.ABCMeta] computes for it.  Class
    objects are compared by structure: two objects with the same name,
    bases and dictionary are one object here. *)
Inductive PyClass :=
  | Class (cls_name : string) (bases : list PyClass)
          (class_dict : gmap string value) (abstractmethods : gset string).

#[export] Instance PyClass_eq_dec : EqDecision PyClass.
Proof.
  refine (fix go (c1 c2 : PyClass) {struct c1} : Decision (c1 = c2) :=
            match c1, c2 with
            | Class n1 b1 d1 a1, Class n2 b2 d2 a2 =>
                cast_if_and4 (decide (n1 = n2)) (@list_eq_dec _ go b1 b2)
                             (decide (d1 = d2)) (decide (a1 = a2))
            end); abstract congruence.
Defined.

Definition cls_name_of (c : PyClass) : string :=
  match c with Class n _ _ _ => n end.

Definition cls_dict (c : PyClass) : gmap string value :=
  match c with Class _ _ d _ => d end.

Definition cls_bases (c : PyClass) : list PyClass :=
  match c with Class _ b _ _ => b end.

Definition cls_abstractmethods (c : PyClass) : gset string :=
  match c with Class _ _ _ a => a end.

(** ** Method resolution order

    The runtime linearises the ancestors of a class by the C3 merge of the
    linearisations of its bases and of the list of bases itself. *)

(** The candidate [c] may be taken when it is in the tail of no sequence. *)
Definition c3_candidate_ok (seqs : list (list PyClass)) (c : PyClass) : bool :=
  forallb (λ seq, bool_decide (c ∉ tail seq)) seqs.

(** Remove [c] from the front of a sequence. *)
Definition c3_drop (c : PyClass) (seq : list PyClass) : list PyClass :=
  match seq with
  | h :: t => if decide (h = c) then t else seq
  | [] => []
  end.

(** Keep the first occurrence of each class. *)
Fixpoint first_occurrences (l : list PyClass) : list PyClass :=
  match l with
  | [] => []
  | c :: l' => c :: filter (λ c', c' ≠ c) (first_occurrences l')
  end.

(** The merge takes the first front class that no tail holds, until the
    sequences are exhausted ([inr], the merged order) or no front class
    can be taken ([inl], the front classes left, as the error reports
    them).  Each step removes a class, so the total length is fuel enough. *)
Fixpoint c3_merge (fuel : nat) (seqs : list (list PyClass)) :
    list PyClass + list PyClass :=
  let seqs := filter (λ seq, seq ≠ []) seqs in
  match seqs with
  | [] => inr []
  | _ :: _ =>
      let fronts := omap head seqs in
      match List.find (c3_candidate_ok seqs) fronts with
      | None => inl (first_occurrences fronts)
      | Some c =>
          match fuel with
          | O => inl (first_occurrences fronts)
          | S fuel' =>
              match c3_merge fuel' (c3_drop c <$> seqs) with
              | inr merged => inr (c :: merged)
              | inl stuck => inl stuck
              end
          end
      end
  end.

(** The sequences merged for a list of bases whose linearisations are
    [mros], and the merge itself. *)
Definition c3_merge_bases (mros : list (list PyClass)) (bases : list PyClass) :
    list PyClass + list PyClass :=
  let seqs := (mros ++ [bases])%list in
  c3_merge (length (concat seqs)) seqs.

(** The root of every hierarchy.  Its own attributes are not modelled. *)
Definition object_cls : PyClass := Class "object" [] ∅ ∅.

(** [cls.__mro__], when the ancestors can be linearised.  A class without
    bases derives from [object]. *)
Fixpoint mro (c : PyClass) : option (list PyClass) :=
  match c with
  | Class _ bases _ _ =>
      match bases with
      | [] => if decide (c = object_cls) then Some [c] else Some [c; object_cls]
      | _ :: _ =>
          match
            (fix mros (bs : list PyClass) : option (list (list PyClass)) :=
               match bs with
               | [] => Some []
               | b :: bs' =>
                   match mro b, mros bs' with
                   | Some m, Some ms => Some (m :: ms)
                   | _, _ => None
                   end
               end) bases
          with
          | Some ms =>
              match c3_merge_bases ms bases with
              | inr merged => Some (c :: merged)
              | inl _ => None
              end
          | None => None
          end
      end
  end.

(** The first binding of an attribute in the dictionaries of a list of
    classes. *)
Fixpoint lookup_along (l : list PyClass) (attr : string) : option value :=
  match l with
  | [] => None
  | c :: l' =>
      match cls_dict c !! attr with
      | Some v => Some v
      | None => lookup_along l' attr
      end
  end.

(** Attribute lookup on a class: the dictionaries of the classes of its
    resolution order, the class itself first. *)
Definition cls_getattr (c : PyClass) (attr : string) : option value :=
  lookup_along (default [c] (mro c)) attr.

(** The names bound to abstract methods in a class body. *)
Definition abstract_in_namespace (d : gmap string value) : gset string :=
  dom (filter (λ kv, isabstractmethod kv.2 = true) d).

(** The abstract names of the bases that the new class still resolves to an
    abstract method. *)
Definition abstract_inherited (c : PyClass) : gset string :=
  filter (λ n, from_option isabstractmethod false (cls_getattr c n) = true)
         (⋃ (cls_abstractmethods <$> cls_bases c)).

(** The class object that [abc.ABCMeta.__new__] builds from a name, bases
    and a body, with its abstract methods recorded.  Whether the
    interpreter builds it at all is [construction_error] below. *)
Definition ABCMeta_new (cls_name : string) (bases : list PyClass)
    (class_dict : gmap string value) : PyClass :=
  let cls := Class cls_name bases class_dict ∅ in
  Class cls_name bases class_dict
        (abstract_in_namespace class_dict ∪ abstract_inherited cls).

(** [inspect.isabstract]: the class has abstract methods left. *)
Definition isabstract (c : PyClass) : bool :=
  bool_decide (cls_abstractmethods c ≠ ∅).

(** ** Exceptions and results *)

Inductive exn :=
  | ValueError (msg : string)
  | TypeError (msg : string)
  | OtherError (what : string).

Inductive result (A : Type) :=
  | Ok (a : A)
  | Raise (e : exn).
Arguments Ok {A} a.
Arguments Raise {A} e.

(** ** External collaborators *)

(** [naming.camelcase_to_snakecase] and [py_utils.is_notebook] live in other
    modules of the package, and the class is built by the interpreter
    ([type.__new__], reached through [abc.ABCMeta.__new__]), which refuses
    some class statements: duplicate or inconsistent bases, a [__slots__]
    entry that clashes with a class variable, and more.
    [construction_error cls_name bases class_dict] is the exception it
    raises for these arguments, if it raises one.  The registration code is
    parametric in all three. *)
Class Externals := {
  camelcase_to_snakecase : string → string;
  is_notebook : bool;
  construction_error : string → list PyClass → gmap string value → option exn;
}.

(** ** Module state *)

Record Globals := mkGlobals {
  _DATASET_REGISTRY : gmap string PyClass;
  _ABSTRACT_DATASET_REGISTRY : gmap string PyClass;
  _IN_DEVELOPMENT_REGISTRY : gmap string PyClass;
  _skip_registration : bool;
}.

(** The state right after the module is imported. *)
Definition module_init : Globals :=
  mkGlobals ∅ ∅ ∅ false.


(** ** A state-and-exception monad for module-level code *)

Definition M (A : Type) : Type := Globals → Globals * result A.

#[export] Instance M_ret : MRet M := λ A a g, (g, Ok a).

#[export] Instance M_bind : MBind M := λ A B k m g,
  match m g with
  | (g', Ok a) => k a g'
  | (g', Raise e) => (g', Raise e)
  end.

Definition raise {A} (e : exn) : M A := λ g, (g, Raise e).

Definition pass : M unit := mret tt.

Definition read {A} (f : Globals → A) : M A := λ g, (g, Ok (f g)).

Definition modify (f : Globals → Globals) : M unit := λ g, (f g, Ok tt).

(** [try: body finally: handler]: the handler runs on both exits, and the
    exception of the body, if any, propagates after it. *)
Definition try_finally {A} (body : M A) (handler : M unit) : M A :=
  λ g, match body g with
       | (g1, r) =>
           match handler g1 with
           | (g2, Ok _) => (g2, r)
           | (g2, Raise e) => (g2, Raise e)
           end
       end.

(** Assignments to the module-level names. *)
Definition set_DATASET_REGISTRY (name : string) (c : PyClass) (g : Globals) : Globals :=
  mkGlobals (<[name := c]> (_DATASET_REGISTRY g)) (_ABSTRACT_DATASET_REGISTRY g)
            (_IN_DEVELOPMENT_REGISTRY g) (_skip_registration g).

Definition set_ABSTRACT_DATASET_REGISTRY (name : string) (c : PyClass) (g : Globals) : Globals :=
  mkGlobals (_DATASET_REGISTRY g) (<[name := c]> (_ABSTRACT_DATASET_REGISTRY g))
            (_IN_DEVELOPMENT_REGISTRY g) (_skip_registration g).

Definition set_IN_DEVELOPMENT_REGISTRY (name : string) (c : PyClass) (g : Globals) : Globals :=
  mkGlobals (_DATASET_REGISTRY g) (_ABSTRACT_DATASET_REGISTRY g)
            (<[name := c]> (_IN_DEVELOPMENT_REGISTRY g)) (_skip_registration g).

Definition set_skip_registration (b : bool) (g : Globals) : Globals :=
  mkGlobals (_DATASET_REGISTRY g) (_ABSTRACT_DATASET_REGISTRY g)
            (_IN_DEVELOPMENT_REGISTRY g) b.

(** [key in d] on a dictionary. *)
Definition py_in {A} (key : string) (d : gmap string A) : bool :=
  bool_decide (is_Some (d !! key)).

(** [d.get(key)] followed by a truth test; a missing key gives [None]. *)
Definition get_truthy (d : gmap string value) (key : string) : bool :=
  from_option truthy false (d !! key).

(** ** The registration code *)

(** The three messages of the collision check, [%s] filled with the name. *)
Definition msg_registered (name : string) : string :=
  "Dataset with name " ++ name ++ " already registered.".

Definition msg_in_development (name : string) : string :=
  "Dataset with name " ++ name ++ " already registered as in development.".

Definition msg_abstract (name : string) : string :=
  "Dataset with name " ++ name ++ " already registered as abstract.".

(** [skip_registration]: the context manager around a body. *)
Definition skip_registration {A} (body : M A) : M A :=
  try_finally (modify (set_skip_registration true);; body)
              (modify (set_skip_registration false)).

(** [super(RegisteredDataset, cls).__new__(cls, cls_name, bases, class_dict)]:
    the class object, or the exception of the interpreter. *)
Definition super_new `{Externals} (cls_name : string) (bases : list PyClass)
    (class_dict : gmap string value) : M PyClass :=
  match construction_error cls_name bases class_dict with
  | Some e => raise e
  | None => mret (ABCMeta_new cls_name bases class_dict)
  end.

Module RegisteredDataset.

(** [RegisteredDataset.__new__(cls, cls_name, bases, class_dict)]. *)
Definition __new__ `{Externals} (cls_name : string) (bases : list PyClass)
    (class_dict : gmap string value) : M PyClass :=
  let name := camelcase_to_snakecase cls_name in
  let class_dict := <["name" := VStr name]> class_dict in
  builder_cls ← super_new cls_name bases class_dict;
  (if is_notebook then pass
   else
     in_registry ← read (λ g, py_in name (_DATASET_REGISTRY g));
     if (in_registry : bool) then raise (ValueError (msg_registered name))
     else
       in_development ← read (λ g, py_in name (_IN_DEVELOPMENT_REGISTRY g));
       if (in_development : bool) then raise (ValueError (msg_in_development name))
       else
         in_abstract ← read (λ g, py_in name (_ABSTRACT_DATASET_REGISTRY g));
         if (in_abstract : bool) then raise (ValueError (msg_abstract name))
         else pass);;
  (skipping ← read _skip_registration;
   if (skipping : bool) then pass
   else if isabstract builder_cls then
     modify (set_ABSTRACT_DATASET_REGISTRY name builder_cls)
   else if get_truthy class_dict "IN_DEVELOPMENT" then
     modify (set_IN_DEVELOPMENT_REGISTRY name builder_cls)
   else
     modify (set_DATASET_REGISTRY name builder_cls) : M unit);;
  mret builder_cls.

End RegisteredDataset.

(** ** Module-level programs

    The code that uses the registry is a sequence of class statements,
    possibly inside [with skip_registration():] blocks, and any statement
    may raise.  A class statement carries its evaluated bases and body. *)
Inductive stmt :=
  | ClassDef (cls_name : string) (bases : list PyClass)
             (class_dict : gmap string value)
  | RaiseStmt (e : exn)
  | WithSkipRegistration (body : list stmt).

Section Exec.
Context `{Externals}.

Fixpoint exec (s : stmt) : M unit :=
  match s with
  | ClassDef cls_name bases class_dict =>
      RegisteredDataset.__new__ cls_name bases class_dict;; pass
  | RaiseStmt e => raise e
  | WithSkipRegistration body =>
      skip_registration
        ((fix block (l : list stmt) : M unit :=
            match l with
            | [] => pass
            | s' :: l' => exec s';; block l'
            end) body)
  end.

(** A block of statements runs them in order up to the first exception. *)
Fixpoint exec_block (l : list stmt) : M unit :=
  match l with
  | [] => pass
  | s :: l' => exec s;; exec_block l'
  end.

End Exec.

(** A program run from a freshly imported module. *)
Definition run `{Externals} (prog : list stmt) : Globals * result unit :=
  exec_block prog module_init.


(** ** Observations on the state *)

(** The number of registries that hold a name. *)
Definition tables_holding (name : string) (g : Globals) : nat :=
  (if py_in name (_DATASET_REGISTRY g) then 1 else 0) +
  (if py_in name (_IN_DEVELOPMENT_REGISTRY g) then 1 else 0) +
  (if py_in name (_ABSTRACT_DATASET_REGISTRY g) then 1 else 0).

(** The name is in one of the three registries. *)
Definition registered_somewhere (name : string) (g : Globals) : bool :=
  py_in name (_DATASET_REGISTRY g)
  || py_in name (_IN_DEVELOPMENT_REGISTRY g)
  || py_in name (_ABSTRACT_DATASET_REGISTRY g).

(** The three registries of a state, without the flag. *)
Definition tables (g : Globals) :
    gmap string PyClass * gmap string PyClass * gmap string PyClass :=
  (_DATASET_REGISTRY g, _IN_DEVELOPMENT_REGISTRY g, _ABSTRACT_DATASET_REGISTRY g).

(** The registries, named as the error messages name them. *)
Inductive table := Concrete | InDevelopment | Abstract.

#[export] Instance table_eq_dec : EqDecision table.
Proof. solve_decision. Defined.

Definition table_of (t : table) (g : Globals) : gmap string PyClass :=
  match t with
  | Concrete => _DATASET_REGISTRY g
  | InDevelopment => _IN_DEVELOPMENT_REGISTRY g
  | Abstract => _ABSTRACT_DATASET_REGISTRY g
  end.

(** The registry a new class is filed under when registration is on. *)
Definition classify (builder_cls : PyClass) (class_dict : gmap string value) : table :=
  if isabstract builder_cls then Abstract
  else if get_truthy class_dict "IN_DEVELOPMENT" then InDevelopment
  else Concrete.

(** Whether a string ends with a given suffix. *)
Definition ends_with (suffix s : string) : bool :=
  bool_decide (reverse (String.list_ascii_of_string suffix)
               `prefix_of` reverse (String.list_ascii_of_string s)).

(** Reading the registry back from an error message. *)
Definition table_of_message (msg : string) : option table :=
  if ends_with " already registered." msg then Some Concrete
  else if ends_with " already registered as in development." msg then Some InDevelopment
  else if ends_with " already registered as abstract." msg then Some Abstract
  else None.

(** ** A sample environment and sample classes *)

Definition is_upper (c : ascii) : bool :=
  let n := nat_of_ascii c in (65 <=? n)%nat && (n <=? 90)%nat.

Definition is_lower_or_digit (c : ascii) : bool :=
  let n := nat_of_ascii c in
  ((97 <=? n)%nat && (n <=? 122)%nat) || ((48 <=? n)%nat && (n <=? 57)%nat).

Definition to_lower (c : ascii) : ascii :=
  if is_upper c then ascii_of_nat (nat_of_ascii c + 32) else c.

Fixpoint snake_from (prev_lower : bool) (s : string) : string :=
  match s with
  | EmptyString => EmptyString
  | String c s' =>
      let rest := String (to_lower c) (snake_from (is_lower_or_digit c) s') in
      if prev_lower && is_upper c then String "_"%char rest else rest
  end.

(** Modelled from the spec: the camel-case-to-snake-case conversion
    ([naming.camelcase_to_snakecase], outside this file) is only described
    by its name and by the examples [Base] to [base] and [MyDataset] to
    [my_dataset]; this sample puts an underscore between a lower-case letter
    or digit and the capital that follows it, and lower-cases the result.
    The theorems do not depend on it; it instantiates them. *)
Definition sample_snakecase (s : string) : string := snake_from false s.

Definition is_letter_or_underscore (c : ascii) : bool :=
  let n := nat_of_ascii c in
  ((65 <=? n)%nat && (n <=? 90)%nat) || ((97 <=? n)%nat && (n <=? 122)%nat)
  || (n =? 95)%nat.

Definition is_digit (c : ascii) : bool :=
  let n := nat_of_ascii c in (48 <=? n)%nat && (n <=? 57)%nat.

(** An identifier of letters, digits and underscores that does not start
    with two underscores, so that it is neither mangled nor one of the
    special slot names. *)
Definition plain_identifier (s : string) : bool :=
  match String.list_ascii_of_string s with
  | [] => false
  | c :: rest =>
      is_letter_or_underscore c
      && forallb (λ c', is_letter_or_underscore c' || is_digit c') rest
      && negb (String.prefix "__" s)
  end.

(** A [__slots__] bound to one plain name that the body binds as well. *)
Definition slots_clash (class_dict : gmap string value) : option exn :=
  match class_dict !! "__slots__" with
  | Some (VStr slot) =>
      if plain_identifier slot && bool_decide (is_Some (class_dict !! slot))
      then Some (ValueError ("'" ++ slot ++ "' in __slots__ conflicts with class variable"))
      else None
  | _ => None
  end.

(** The first base that is listed again further on. *)
Fixpoint duplicate_base (bases : list PyClass) : option PyClass :=
  match bases with
  | [] => None
  | b :: bs => if decide (b ∈ bs) then Some b else duplicate_base bs
  end.

Definition msg_mro_conflict (stuck : list PyClass) : string :=
  "Cannot create a consistent method resolution" ++ String "010"%char
    ("order (MRO) for bases " ++ String.concat ", " (cls_name_of <$> stuck)).

(** Three of the checks the interpreter makes on a class statement, in the
    order it makes them: a [__slots__] name that clashes with a class
    variable, a base listed twice, and bases without a consistent
    resolution order.  Its other checks, some of which come before these,
    are not modelled.  The theorems hold for any [construction_error]; this
    one runs the examples. *)
Definition sample_construction_error (cls_name : string) (bases : list PyClass)
    (class_dict : gmap string value) : option exn :=
  match slots_clash class_dict with
  | Some e => Some e
  | None =>
      match duplicate_base bases with
      | Some b => Some (TypeError ("duplicate base class " ++ cls_name_of b))
      | None =>
          match mapM mro bases with
          | Some mros =>
              match c3_merge_bases mros bases with
              | inl stuck => Some (TypeError (msg_mro_conflict stuck))
              | inr _ => None
              end
          | None => None
          end
      end
  end.

(** A plain interpreter session, and a notebook. *)
Definition script_env : Externals :=
  {| camelcase_to_snakecase := sample_snakecase;
     is_notebook := false;
     construction_error := sample_construction_error |}.

Definition notebook_env : Externals :=
  {| camelcase_to_snakecase := sample_snakecase;
     is_notebook := true;
     construction_error := sample_construction_error |}.

(** Class bodies: one abstract method, its implementation, the
    in-development marker. *)
Definition body_abstract : gmap string value :=
  {[ "_info" := VFunc "raise NotImplementedError" true ]}.

Definition body_concrete : gmap string value :=
  {[ "_info" := VFunc "return info" false ]}.

Definition body_in_development : gmap string value :=
  <[ "IN_DEVELOPMENT" := VBool true ]> body_concrete.

(** The class objects the sample statements build. *)
Definition Base_cls : PyClass :=
  ABCMeta_new "Base" [] (<["name" := VStr "base"]> body_abstract).

Definition MyDataset_cls : PyClass :=
  ABCMeta_new "MyDataset" [Base_cls] (<["name" := VStr "my_dataset"]> body_concrete).

Definition Draft_cls : PyClass :=
  ABCMeta_new "Draft" [Base_cls] (<["name" := VStr "draft"]> body_in_development).

Definition DraftChild_cls : PyClass :=
  ABCMeta_new "DraftChild" [Draft_cls] (<["name" := VStr "draft_child"]> ∅).

(** The scenario of the specification: an abstract base, a concrete
    subclass, and a second class with the same name. *)
Definition scenario_start : list stmt :=
  [ ClassDef "Base" [] body_abstract;
    ClassDef "MyDataset" [Base_cls] body_concrete ].

Definition scenario : list stmt :=
  scenario_start ++ [ ClassDef "MyDataset" [Base_cls] body_concrete ].

(** A class statement in the plain interpreter session. *)
Definition new_script : string → list PyClass → gmap string value → M PyClass :=
  @RegisteredDataset.__new__ script_env.

(** The module state once [Base] and [MyDataset] are defined. *)
Definition scenario_state : Globals := (@run script_env scenario_start).1.

(** A concrete class and then an abstract class of the same name. *)
Definition redefinition : list stmt :=
  [ ClassDef "MyDataset" [] body_concrete;
    ClassDef "MyDataset" [] body_abstract ].

(** ** Names for the parts of a class creation *)

(** The body of the class once [__new__] has written [name] into it. *)
Definition named_body `{Externals} (cls_name : string)
    (class_dict : gmap string value) : gmap string value :=
  <["name" := VStr (camelcase_to_snakecase cls_name)]> class_dict.

(** The class object [__new__] builds. *)
Definition built_class `{Externals} (cls_name : string) (bases : list PyClass)
    (class_dict : gmap string value) : PyClass :=
  ABCMeta_new cls_name bases (named_body cls_name class_dict).

(** The registry the new class belongs to. *)
Definition target `{Externals} (cls_name : string) (bases : list PyClass)
    (class_dict : gmap string value) : table :=
  classify (built_class cls_name bases class_dict) (named_body cls_name class_dict).

(** The message of the collision check that names a registry. *)
Definition message_of_table (t : table) (name : string) : string :=
  match t with
  | Concrete => msg_registered name
  | InDevelopment => msg_in_development name
  | Abstract => msg_abstract name
  end.

(** Writing a class into one registry. *)
Definition set_table (t : table) (name : string) (c : PyClass) (g : Globals) : Globals :=
  match t with
  | Concrete => set_DATASET_REGISTRY name c g
  | InDevelopment => set_IN_DEVELOPMENT_REGISTRY name c g
  | Abstract => set_ABSTRACT_DATASET_REGISTRY name c g
  end.

(** The first registry, in the order of the collision check, that already
    holds the name. *)
Definition collision (name : string) (g : Globals) : option table :=
  if py_in name (_DATASET_REGISTRY g) then Some Concrete
  else if py_in name (_IN_DEVELOPMENT_REGISTRY g) then Some InDevelopment
  else if py_in name (_ABSTRACT_DATASET_REGISTRY g) then Some Abstract
  else None.

(** The state the classification step leaves. *)
Definition filed `{Externals} (cls_name : string) (bases : list PyClass)
    (class_dict : gmap string value) (g : Globals) : Globals :=
  if _skip_registration g then g
  else set_table (target cls_name bases class_dict)
                 (camelcase_to_snakecase cls_name)
                 (built_class cls_name bases class_dict) g.

(** The states a module can be in: the imported module, then any class
    creation and any assignment to the flag. *)
Inductive reachable `{Externals} : Globals → Prop :=
  | reachable_init : reachable module_init
  | reachable_new cls_name bases class_dict g :
      reachable g →
      reachable (RegisteredDataset.__new__ cls_name bases class_dict g).1
  | reachable_flag b g :
      reachable g → reachable (set_skip_registration b g).

(** Induction on statements, with the hypothesis for every statement of a
  nested block. *)
Definition stmt_block_ind (P : stmt → Prop)
  (Hclass : ∀ cls_name bases class_dict, P (ClassDef cls_name bases class_dict))
  (Hraise : ∀ e, P (RaiseStmt e))
  (Hwith : ∀ body, Forall P body → P (WithSkipRegistration body)) :
  ∀ s, P s :=
fix go (s : stmt) : P s :=
  match s with
  | ClassDef cls_name bases class_dict => Hclass cls_name bases class_dict
  | RaiseStmt e => Hraise e
  | WithSkipRegistration body =>
      Hwith body
        ((fix all (l : list stmt) : Forall P l :=
            match l with
            | [] => @List.Forall_nil stmt P
            | s' :: l' => @List.Forall_cons stmt P s' l' (go s') (all l')
            end) body)
  end.

(** The class names a statement defines, guarded blocks included. *)
Fixpoint class_names (s : stmt) : list string :=
  match s with
  | ClassDef cls_name _ _ => [cls_name]
  | RaiseStmt _ => []
  | WithSkipRegistration body =>
      (fix names (l : list stmt) : list string :=
         match l with
         | [] => []
         | s' :: l' => (class_names s' ++ names l')%list
         end) body
  end.

Fixpoint block_class_names (l : list stmt) : list string :=
  match l with
  | [] => []
  | s :: l' => (class_names s ++ block_class_names l')%list
  end.

(** * Properties *)

(** ** The resolution order

    Facts about the linearisation that the attribute lookup uses. *)

Section Linearisation.

Lemma total_length_nonempty (seqs : list (list PyClass)) :
  length (concat (filter (λ seq, seq ≠ []) seqs)) = length (concat seqs).
Proof.
  induction seqs as [|seq seqs IH]; [done|].
  rewrite filter_cons. destruct (decide (seq ≠ [])) as [Hne|Hempty]; simpl.
  - by rewrite !length_app, IH.
  - apply dec_stable in Hempty. subst. simpl. exact IH.
Qed.

Lemma c3_drop_length c seq : (length (c3_drop c seq) ≤ length seq)%nat.
Proof. destruct seq as [|h t]; simpl; [done|]. case_decide; simpl; lia. Qed.

Lemma c3_drop_all_length c (seqs : list (list PyClass)) :
  (length (concat (c3_drop c <$> seqs)) ≤ length (concat seqs))%nat.
Proof.
  induction seqs as [|seq seqs IH]; [done|].
  rewrite fmap_cons. cbn [concat].
  rewrite !length_app. pose proof (c3_drop_length c seq). lia.
Qed.

(** Taking a front class shortens the sequences. *)
Lemma c3_drop_shrinks c (seqs : list (list PyClass)) :
  c ∈ omap head seqs →
  (length (concat (c3_drop c <$> seqs)) < length (concat seqs))%nat.
Proof.
  induction seqs as [|seq seqs IH]; [by intros ?%elem_of_nil|].
  rewrite fmap_cons. cbn [concat].
  rewrite !length_app. pose proof (c3_drop_all_length c seqs) as Hrest.
  destruct seq as [|h t]; cbn [omap list_omap head c3_drop length].
  - intros Hin. specialize (IH Hin). lia.
  - intros [->|Hin]%elem_of_cons.
    + rewrite decide_True by done. lia.
    + specialize (IH Hin). case_decide; cbn [length]; lia.
Qed.

Lemma nothing_to_merge (seqs : list (list PyClass)) :
  length (concat seqs) = 0%nat → filter (λ seq, seq ≠ []) seqs = [].
Proof.
  intros Hzero. pose proof (total_length_nonempty seqs) as Hlen.
  destruct (filter (λ seq, seq ≠ []) seqs) as [|seq rest] eqn:Hf; [done|].
  assert (seq ∈ filter (λ seq, seq ≠ []) seqs) as Hin
    by (rewrite Hf; constructor).
  apply list_elem_of_filter in Hin as [Hne _].
  destruct seq; [done|]. simpl in Hlen. lia.
Qed.

(** The total length of the sequences is fuel enough for the merge: more
    fuel gives the same result. *)
Lemma c3_merge_fuel fuel : ∀ fuel' (seqs : list (list PyClass)),
  (length (concat seqs) ≤ fuel)%nat → (length (concat seqs) ≤ fuel')%nat →
  c3_merge fuel seqs = c3_merge fuel' seqs.
Proof.
  induction fuel as [|fuel IH]; intros fuel' seqs Hle Hle'.
  - assert (filter (λ seq, seq ≠ []) seqs = []) as Hnone
      by (apply nothing_to_merge; lia).
    destruct fuel'; simpl; by rewrite Hnone.
  - destruct fuel' as [|fuel'].
    + symmetry. assert (filter (λ seq, seq ≠ []) seqs = []) as Hnone
        by (apply nothing_to_merge; lia).
      simpl; by rewrite Hnone.
    + simpl.
      pose proof (total_length_nonempty seqs) as Hlen.
      destruct (filter (λ seq, seq ≠ []) seqs) as [|seq rest]; [done|].
      destruct (List.find _ _) as [c|] eqn:Hfind; [|done].
      apply List.find_some in Hfind as [Hin _].
      apply list_elem_of_In in Hin.
      pose proof (c3_drop_shrinks c (seq :: rest) Hin) as Hshrink.
      rewrite (IH fuel' (c3_drop c <$> seq :: rest)); [done| |]; lia.
Qed.

End Linearisation.

(** ** The two halves of [__new__] *)

Section Registration.
Context `{Externals}.

Implicit Types (g : Globals) (cls_name name : string)
  (bases : list PyClass) (class_dict : gmap string value).

(** [__new__] is the construction of the class, the collision check and
    the classification. *)
Lemma new_unfold cls_name bases class_dict g :
  RegisteredDataset.__new__ cls_name bases class_dict g =
    match construction_error cls_name bases (named_body cls_name class_dict) with
    | Some e => (g, Raise e)
    | None =>
        if is_notebook then
          (filed cls_name bases class_dict g,
           Ok (built_class cls_name bases class_dict))
        else
          match collision (camelcase_to_snakecase cls_name) g with
          | Some t =>
              (g, Raise (ValueError (message_of_table t
                                       (camelcase_to_snakecase cls_name))))
          | None =>
              (filed cls_name bases class_dict g,
               Ok (built_class cls_name bases class_dict))
          end
    end.
Proof.
  unfold RegisteredDataset.__new__, super_new, filed, collision, target,
    classify, built_class, named_body.
  unfold mbind, M_bind, mret, M_ret, pass, read, modify, raise, mret, M_ret.
  destruct (construction_error _ _ _) as [e|]; [done|].
  destruct is_notebook; simpl.
  - destruct (_skip_registration g); [done|].
    destruct (isabstract _); [done|]. by destruct (get_truthy _ _).
  - destruct (py_in _ (_DATASET_REGISTRY g)); [done|].
    destruct (py_in _ (_IN_DEVELOPMENT_REGISTRY g)); [done|].
    destruct (py_in _ (_ABSTRACT_DATASET_REGISTRY g)); [done|].
    destruct (_skip_registration g); [done|].
    destruct (isabstract _); [done|]. by destruct (get_truthy _ _).
Qed.


Lemma collision_None name g :
  collision name g = None ↔ registered_somewhere name g = false.
Proof.
  unfold collision, registered_somewhere.
  destruct (py_in name (_DATASET_REGISTRY g)); [done|].
  destruct (py_in name (_IN_DEVELOPMENT_REGISTRY g)); [done|].
  by destruct (py_in name (_ABSTRACT_DATASET_REGISTRY g)).
Qed.


Lemma collision_None_tables name g t :
  collision name g = None → table_of t g !! name = None.
Proof.
  unfold collision, py_in.
  repeat case_bool_decide; try done.
  intros _. destruct t; simpl; by apply eq_None_not_Some.
Qed.

(** What the classification step does to each registry and to the flag. *)
Lemma table_of_set_table t t' name c g :
  table_of t (set_table t' name c g) =
    if decide (t = t') then <[name := c]> (table_of t g) else table_of t g.
Proof. by destruct t, t'. Qed.

Lemma skip_set_table t name c g :
  _skip_registration (set_table t name c g) = _skip_registration g.
Proof. by destruct t. Qed.

Lemma skip_filed cls_name bases class_dict g :
  _skip_registration (filed cls_name bases class_dict g) = _skip_registration g.
Proof.
  unfold filed. destruct (_skip_registration g) eqn:Hs; [done|].
  by rewrite skip_set_table.
Qed.

Lemma truthy_marker_named_body cls_name class_dict :
  get_truthy (named_body cls_name class_dict) "IN_DEVELOPMENT" =
  get_truthy class_dict "IN_DEVELOPMENT".
Proof. unfold get_truthy, named_body. by rewrite lookup_insert_ne. Qed.

Lemma globals_eq g1 g2 :
  tables g1 = tables g2 → _skip_registration g1 = _skip_registration g2 → g1 = g2.
Proof. destruct g1, g2; unfold tables; simpl. by intros [= -> -> ->] ->. Qed.

(** The two outcomes of a call. *)
Lemma new_Ok_inv cls_name bases class_dict g cls :
  (RegisteredDataset.__new__ cls_name bases class_dict g).2 = Ok cls →
  (RegisteredDataset.__new__ cls_name bases class_dict g).1
    = filed cls_name bases class_dict g
  ∧ cls = built_class cls_name bases class_dict.
Proof.
  rewrite new_unfold. destruct (construction_error _ _ _); [done|].
  destruct is_notebook; [by intros [= <-]|].
  destruct (collision _ _); [done|]. by intros [= <-].
Qed.

Lemma new_Ok_constructed cls_name bases class_dict g cls :
  (RegisteredDataset.__new__ cls_name bases class_dict g).2 = Ok cls →
  construction_error cls_name bases (named_body cls_name class_dict) = None.
Proof. rewrite new_unfold. by destruct (construction_error _ _ _). Qed.

Lemma new_Ok_no_collision cls_name bases class_dict g cls :
  is_notebook = false →
  (RegisteredDataset.__new__ cls_name bases class_dict g).2 = Ok cls →
  collision (camelcase_to_snakecase cls_name) g = None.
Proof.
  intros Hnb. rewrite new_unfold, Hnb.
  destruct (construction_error _ _ _); [done|]. by destruct (collision _ _).
Qed.

(** An exception is the one of the construction, or, the class built, the
    one of the collision check; either way the state is as it was. *)
Lemma new_Raise_inv cls_name bases class_dict g e :
  (RegisteredDataset.__new__ cls_name bases class_dict g).2 = Raise e →
  (RegisteredDataset.__new__ cls_name bases class_dict g).1 = g
  ∧ (construction_error cls_name bases (named_body cls_name class_dict) = Some e
     ∨ construction_error cls_name bases (named_body cls_name class_dict) = None
       ∧ is_notebook = false
       ∧ ∃ t, collision (camelcase_to_snakecase cls_name) g = Some t
              ∧ e = ValueError (message_of_table t (camelcase_to_snakecase cls_name))).
Proof.
  rewrite new_unfold. destruct (construction_error _ _ _) as [e'|].
  { intros [= <-]. eauto. }
  destruct is_notebook; [done|].
  destruct (collision _ _) as [t|]; [|done].
  intros [= <-]. split; [done|]. right. eauto 6.
Qed.


(** ** The collision check *)


(** ** The classification *)

(** C2. When [_skip_registration] is false and [__new__] returns, the
    class is written to [_ABSTRACT_DATASET_REGISTRY] if it is abstract,
    else to [_IN_DEVELOPMENT_REGISTRY] if its body sets a true
    [IN_DEVELOPMENT], else to [_DATASET_REGISTRY]; in the first two cases
    [_DATASET_REGISTRY] is left as it was. *)
Theorem new_classification cls_name bases class_dict g cls :
  _skip_registration g = false →
  (RegisteredDataset.__new__ cls_name bases class_dict g).2 = Ok cls →
  let g' := (RegisteredDataset.__new__ cls_name bases class_dict g).1 in
  let name := camelcase_to_snakecase cls_name in
  (isabstract cls = true →
     _ABSTRACT_DATASET_REGISTRY g' = <[name := cls]> (_ABSTRACT_DATASET_REGISTRY g)
     ∧ _DATASET_REGISTRY g' = _DATASET_REGISTRY g
     ∧ _IN_DEVELOPMENT_REGISTRY g' = _IN_DEVELOPMENT_REGISTRY g)
  ∧ (isabstract cls = false → get_truthy class_dict "IN_DEVELOPMENT" = true →
     _IN_DEVELOPMENT_REGISTRY g' = <[name := cls]> (_IN_DEVELOPMENT_REGISTRY g)
     ∧ _DATASET_REGISTRY g' = _DATASET_REGISTRY g
     ∧ _ABSTRACT_DATASET_REGISTRY g' = _ABSTRACT_DATASET_REGISTRY g)
  ∧ (isabstract cls = false → get_truthy class_dict "IN_DEVELOPMENT" = false →
     _DATASET_REGISTRY g' = <[name := cls]> (_DATASET_REGISTRY g)
     ∧ _IN_DEVELOPMENT_REGISTRY g' = _IN_DEVELOPMENT_REGISTRY g
     ∧ _ABSTRACT_DATASET_REGISTRY g' = _ABSTRACT_DATASET_REGISTRY g).
Proof.
  intros Hskip Hok g' name. subst g' name.
  destruct (new_Ok_inv _ _ _ _ _ Hok) as [-> ->].
  clear Hok. unfold filed, target, classify. rewrite Hskip.
  rewrite truthy_marker_named_body.
  split_and!.
  - by intros ->.
  - by intros -> ->.
  - by intros -> ->.
Qed.

(** A resolution order starts with the class itself. *)
Lemma mro_head c l : mro c = Some l → ∃ rest, l = c :: rest.
Proof.
  destruct c as [n b d a]. simpl.
  destruct b as [|b0 b]; [case_decide; intros [= <-]; eauto|].
  destruct ((fix mros (bs : list PyClass) : option (list (list PyClass)) :=
               match bs with
               | [] => Some []
               | b0 :: bs' =>
                   match mro b0, mros bs' with
                   | Some m, Some ms => Some (m :: ms)
                   | _, _ => None
                   end
               end) (b0 :: b)) as [ms|]; [|done].
  destruct (c3_merge_bases ms (b0 :: b)) as [stuck|merged]; [done|].
  intros [= <-]. eauto.
Qed.

Lemma getattr_own c attr v :
  cls_dict c !! attr = Some v → cls_getattr c attr = Some v.
Proof.
  intros Hown. unfold cls_getattr.
  destruct (mro c) as [l|] eqn:Hmro; simpl.
  - destruct (mro_head _ _ Hmro) as [rest ->]. simpl. by rewrite Hown.
  - by rewrite Hown.
Qed.

Lemma built_class_name cls_name bases class_dict :
  cls_dict (built_class cls_name bases class_dict) !! "name"
    = Some (VStr (camelcase_to_snakecase cls_name)).
Proof. unfold built_class, named_body; simpl. apply lookup_insert_eq. Qed.

(** ** The [name] attribute *)

(** C4. The class that [__new__] returns, in any state and so also while
    [_skip_registration] is set, has [camelcase_to_snakecase(cls_name)] as
    its [name] attribute, whatever the body bound [name] to; two classes
    created under one class name get the same [name]. *)
Theorem new_sets_name cls_name bases class_dict g cls :
  (RegisteredDataset.__new__ cls_name bases class_dict g).2 = Ok cls →
  cls_getattr cls "name" = Some (VStr (camelcase_to_snakecase cls_name))
  ∧ ∀ bases' class_dict' g' cls',
      (RegisteredDataset.__new__ cls_name bases' class_dict' g').2 = Ok cls' →
      cls_getattr cls' "name" = cls_getattr cls "name".
Proof.
  assert (∀ bs d g0 c,
            (RegisteredDataset.__new__ cls_name bs d g0).2 = Ok c →
            cls_getattr c "name" = Some (VStr (camelcase_to_snakecase cls_name)))
    as Hname.
  { intros bs d g0 c Hok. destruct (new_Ok_inv _ _ _ _ _ Hok) as [_ ->].
    apply getattr_own, built_class_name. }
  intros Hok. split; [by eapply Hname|].
  intros bases' class_dict' g' cls' Hok'.
  rewrite (Hname _ _ _ _ Hok), (Hname _ _ _ _ Hok'). done.
Qed.

(** ** Failure leaves the registries alone *)

(** C6. A call of [__new__] that raises leaves the module state, and so
    each of the three registries, exactly as it found it. *)
Theorem new_raise_unchanged cls_name bases class_dict g e :
  (RegisteredDataset.__new__ cls_name bases class_dict g).2 = Raise e →
  (RegisteredDataset.__new__ cls_name bases class_dict g).1 = g.
Proof. intros Hr. by destruct (new_Raise_inv _ _ _ _ _ Hr) as [? _]. Qed.

(** ** What a successful call changes *)

(** C8. A call of [__new__] that returns gives the class with its [name]
    attribute set and leaves [_skip_registration] as it was.  With the
    flag set the state is unchanged; with the flag clear the registry
    chosen by the classification gets the one assignment
    [registry[name] = builder_cls] and the other two are unchanged; outside
    a notebook that assignment adds a key the registry did not have. *)
Theorem new_success_frame cls_name bases class_dict g cls :
  (RegisteredDataset.__new__ cls_name bases class_dict g).2 = Ok cls →
  let g' := (RegisteredDataset.__new__ cls_name bases class_dict g).1 in
  let name := camelcase_to_snakecase cls_name in
  let chosen := target cls_name bases class_dict in
  cls = built_class cls_name bases class_dict
  ∧ cls_getattr cls "name" = Some (VStr name)
  ∧ _skip_registration g' = _skip_registration g
  ∧ (_skip_registration g = true → g' = g)
  ∧ (_skip_registration g = false →
       table_of chosen g' = <[name := cls]> (table_of chosen g)
       ∧ (∀ t, t ≠ chosen → table_of t g' = table_of t g)
       ∧ (is_notebook = false →
            table_of chosen g !! name = None
            ∧ table_of chosen g' ≠ table_of chosen g)).
Proof.
  intros Hok g' name chosen. subst g' name chosen.
  destruct (new_Ok_inv _ _ _ _ _ Hok) as [-> ->].
  split_and!.
  - done.
  - apply getattr_own, built_class_name.
  - apply skip_filed.
  - unfold filed. by intros ->.
  - intros Hskip. unfold filed. rewrite Hskip. split_and!.
    + rewrite table_of_set_table. by rewrite decide_True.
    + intros t Hne. rewrite table_of_set_table. by rewrite decide_False.
    + intros Hnb.
      assert (collision (camelcase_to_snakecase cls_name) g = None) as Hcol
        by by eapply new_Ok_no_collision.
      pose proof (collision_None_tables _ _ (target cls_name bases class_dict) Hcol)
        as Hnone.
      split; [done|].
      rewrite table_of_set_table, decide_True by done.
      intros Heq. rewrite <- Heq in Hnone.
      by rewrite lookup_insert_eq in Hnone.
Qed.

(** ** Where the in-development marker is read *)

(** C10. With [_skip_registration] clear, a class that is not abstract and
    whose own body has no true [IN_DEVELOPMENT] goes to
    [_DATASET_REGISTRY] and not to [_IN_DEVELOPMENT_REGISTRY], for any
    bases: also when the class inherits a true [IN_DEVELOPMENT] from an
    in-development base. *)
Theorem marker_read_from_body cls_name bases class_dict g cls :
  _skip_registration g = false →
  (RegisteredDataset.__new__ cls_name bases class_dict g).2 = Ok cls →
  isabstract cls = false →
  get_truthy class_dict "IN_DEVELOPMENT" = false →
  let g' := (RegisteredDataset.__new__ cls_name bases class_dict g).1 in
  let name := camelcase_to_snakecase cls_name in
  _DATASET_REGISTRY g' = <[name := cls]> (_DATASET_REGISTRY g)
  ∧ _IN_DEVELOPMENT_REGISTRY g' = _IN_DEVELOPMENT_REGISTRY g
  ∧ _DATASET_REGISTRY g' !! name = Some cls.
Proof.
  intros Hskip Hok Habs Hmark g' name. subst g' name.
  destruct (new_Ok_inv _ _ _ _ _ Hok) as [-> ->].
  unfold filed, target, classify.
  rewrite Hskip, Habs, truthy_marker_named_body, Hmark. simpl.
  split_and!; [done|done|]. apply lookup_insert_eq.
Qed.

End Registration.

(** ** The error messages *)

Section Messages.







End Messages.

Section Errors.
Context `{Externals}.



End Errors.

(** ** Programs *)

Section Programs.
Context `{Externals}.

Lemma bind_unfold {A B} (m : M A) (k : A → M B) g :
  (m ≫= k) g =
    match (m g).2 with
    | Ok a => k a (m g).1
    | Raise e => ((m g).1, Raise e)
    end.
Proof. unfold mbind, M_bind. by destruct (m g) as [g' [a|e]]. Qed.

Lemma skip_registration_unfold {A} (body : M A) g :
  skip_registration body g =
    (set_skip_registration false (body (set_skip_registration true g)).1,
     (body (set_skip_registration true g)).2).
Proof.
  unfold skip_registration, try_finally, modify. rewrite bind_unfold. simpl.
  by destruct (body (set_skip_registration true g)) as [g1 r].
Qed.

Lemma exec_with body :
  exec (WithSkipRegistration body) = skip_registration (exec_block body).
Proof. reflexivity. Qed.

Lemma exec_class cls_name bases class_dict g :
  exec (ClassDef cls_name bases class_dict) g =
    ((RegisteredDataset.__new__ cls_name bases class_dict g).1,
     match (RegisteredDataset.__new__ cls_name bases class_dict g).2 with
     | Ok _ => Ok tt
     | Raise e => Raise e
     end).
Proof.
  simpl. rewrite bind_unfold.
  by destruct (RegisteredDataset.__new__ cls_name bases class_dict g) as [g' [c|e]].
Qed.

Lemma exec_block_cons s l g :
  exec_block (s :: l) g =
    match (exec s g).2 with
    | Ok _ => exec_block l (exec s g).1
    | Raise e => ((exec s g).1, Raise e)
    end.
Proof. simpl. by rewrite bind_unfold. Qed.

(** Every state a program passes through or ends in is reachable. *)
Lemma exec_reachable s : ∀ g, reachable g → reachable (exec s g).1.
Proof.
  induction s as [cls_name bases class_dict|e|body IH] using stmt_block_ind;
    intros g Hg.
  - rewrite exec_class. simpl. by constructor.
  - done.
  - rewrite exec_with, skip_registration_unfold. simpl.
    constructor.
    assert (∀ g0, reachable g0 → reachable (exec_block body g0).1) as Hblock.
    { clear g Hg. induction IH as [|s l Hs _ IHl]; intros g0 Hg0; [done|].
      rewrite exec_block_cons.
      destruct (exec s g0).2 eqn:Hres; simpl; [apply IHl|]; by apply Hs. }
    apply Hblock. by constructor.
Qed.

Lemma exec_block_reachable l : ∀ g, reachable g → reachable (exec_block l g).1.
Proof.
  induction l as [|s l IH]; intros g Hg; [done|].
  rewrite exec_block_cons.
  destruct (exec s g).2 eqn:Hres; simpl; [apply IH|]; by apply exec_reachable.
Qed.

Lemma run_reachable prog : reachable (run prog).1.
Proof. apply exec_block_reachable. constructor. Qed.

(** ** One registry per name *)

Lemma py_in_insert {A} (k k' : string) (v : A) (m : gmap string A) :
  py_in k' (<[k := v]> m) = if decide (k = k') then true else py_in k' m.
Proof.
  unfold py_in. case_decide as Hk.
  - subst. rewrite lookup_insert_eq. by apply bool_decide_eq_true_2.
  - by rewrite lookup_insert_ne.
Qed.

Lemma py_in_empty {A} (k : string) : py_in k (∅ : gmap string A) = false.
Proof.
  unfold py_in. apply bool_decide_eq_false_2.
  rewrite lookup_empty. by intros [? ?].
Qed.

Lemma collision_None_py_in name g :
  collision name g = None →
  py_in name (_DATASET_REGISTRY g) = false
  ∧ py_in name (_IN_DEVELOPMENT_REGISTRY g) = false
  ∧ py_in name (_ABSTRACT_DATASET_REGISTRY g) = false.
Proof.
  unfold collision.
  destruct (py_in name (_DATASET_REGISTRY g)); [done|].
  destruct (py_in name (_IN_DEVELOPMENT_REGISTRY g)); [done|].
  by destruct (py_in name (_ABSTRACT_DATASET_REGISTRY g)).
Qed.

(** Filing a name that no registry holds keeps every name in at most one
    registry. *)
Lemma tables_holding_set_table t name c g name' :
  collision name g = None →
  (tables_holding name' g ≤ 1)%nat →
  (tables_holding name' (set_table t name c g) ≤ 1)%nat.
Proof.
  intros (HD & HI & HA)%collision_None_py_in Hle.
  unfold tables_holding in *.
  destruct t; simpl; rewrite py_in_insert; case_decide as Hk; try done;
    subst; rewrite ?HD, ?HI, ?HA; simpl; lia.
Qed.

Lemma new_keeps_one_table cls_name bases class_dict g name :
  is_notebook = false →
  (tables_holding name g ≤ 1)%nat →
  (tables_holding name (RegisteredDataset.__new__ cls_name bases class_dict g).1 ≤ 1)%nat.
Proof.
  intros Hnb Hle. rewrite new_unfold, Hnb.
  destruct (construction_error _ _ _); [done|].
  destruct (collision _ _) eqn:Hcol; simpl; [done|].
  unfold filed. destruct (_skip_registration g); [done|].
  by apply tables_holding_set_table.
Qed.

(** C3, as the code has it.  Outside a notebook ([is_notebook()] false),
    in every state reachable from the imported module by class creations
    and assignments to the flag, a name is a key of at most one of the
    three registries; and a class creation that returns there found the
    name in none of the three. *)
Theorem one_table_per_name g name :
  is_notebook = false →
  reachable g →
  (tables_holding name g ≤ 1)%nat
  ∧ ∀ cls_name bases class_dict cls,
      (RegisteredDataset.__new__ cls_name bases class_dict g).2 = Ok cls →
      registered_somewhere (camelcase_to_snakecase cls_name) g = false.
Proof.
  intros Hnb Hreach. split.
  - induction Hreach as [|cls_name bases class_dict g Hg IH|b g Hg IH].
    + unfold tables_holding. simpl. rewrite !py_in_empty. simpl. lia.
    + by apply new_keeps_one_table.
    + done.
  - intros cls_name bases class_dict cls Hok.
    apply collision_None. by eapply new_Ok_no_collision.
Qed.

(** ** The guard *)

Lemma tables_set_skip b g : tables (set_skip_registration b g) = tables g.
Proof. done. Qed.



Lemma filed_lookup cls_name bases class_dict g :
  _skip_registration g = false →
  table_of (target cls_name bases class_dict) (filed cls_name bases class_dict g)
    !! camelcase_to_snakecase cls_name
  = Some (built_class cls_name bases class_dict).
Proof.
  intros Hskip. unfold filed. rewrite Hskip, table_of_set_table, decide_True by done.
  apply lookup_insert_eq.
Qed.


(** C9. The flag is one module-level boolean: when an inner
    [with skip_registration():] block has ended, a class statement that
    follows it inside the outer block runs with the flag clear, and if the
    outer block ends without an exception the class is in the registry of
    its kind. *)
Theorem nested_guard_registers inner cls_name bases class_dict g :
  let outer :=
    WithSkipRegistration
      [WithSkipRegistration inner; ClassDef cls_name bases class_dict] in
  (exec outer g).2 = Ok tt →
  table_of (target cls_name bases class_dict) (exec outer g).1
    !! camelcase_to_snakecase cls_name
    = Some (built_class cls_name bases class_dict)
  ∧ registered_somewhere (camelcase_to_snakecase cls_name) (exec outer g).1 = true.
Proof.
  intros outer. subst outer.
  rewrite exec_with, skip_registration_unfold. cbn [fst snd].
  set (g1 := set_skip_registration true g).
  rewrite exec_block_cons.
  assert (_skip_registration (exec (WithSkipRegistration inner) g1).1 = false)
    as Hclear by by rewrite exec_with, skip_registration_unfold.
  destruct (exec (WithSkipRegistration inner) g1).2 as [[]|e]; [|done].
  set (g2 := (exec (WithSkipRegistration inner) g1).1) in *.
  rewrite exec_block_cons, exec_class. cbn [fst snd].
  destruct (RegisteredDataset.__new__ cls_name bases class_dict g2).2
    as [cls|e] eqn:Hnew; [|done].
  intros _. destruct (new_Ok_inv _ _ _ _ _ Hnew) as [Hst ->].
  simpl. rewrite Hst.
  assert (table_of (target cls_name bases class_dict)
            (set_skip_registration false (filed cls_name bases class_dict g2))
            !! camelcase_to_snakecase cls_name
          = Some (built_class cls_name bases class_dict)) as Hlook.
  { transitivity (table_of (target cls_name bases class_dict)
                    (filed cls_name bases class_dict g2)
                    !! camelcase_to_snakecase cls_name).
    - by destruct (target cls_name bases class_dict).
    - by apply filed_lookup. }
  split; [done|].
  unfold registered_somewhere, py_in.
  destruct (target cls_name bases class_dict); simpl in Hlook |- *;
    rewrite ?orb_true_iff; [left; left|left; right|right];
    apply bool_decide_eq_true_2; by rewrite Hlook.
Qed.

End Programs.

(** ** The properties on the sample classes *)

Section Samples.

(** The scenario: [Base] is filed as abstract, [MyDataset] as a dataset,
    and the second [MyDataset] is refused. *)
Example scenario_outcome :
  (@run script_env scenario).2
    = Raise (ValueError "Dataset with name my_dataset already registered.")
  ∧ tables (@run script_env scenario).1
    = ({[ "my_dataset" := MyDataset_cls ]}, ∅, {[ "base" := Base_cls ]}).
Proof. split; vm_compute; reflexivity. Qed.

Lemma new_classification_witness :
  _skip_registration module_init = false
  ∧ (new_script "MyDataset" [Base_cls] body_concrete module_init).2 = Ok MyDataset_cls
  ∧ isabstract MyDataset_cls = false
  ∧ get_truthy body_concrete "IN_DEVELOPMENT" = false
  ∧ _DATASET_REGISTRY (new_script "MyDataset" [Base_cls] body_concrete module_init).1
    = <["my_dataset" := MyDataset_cls]> ∅.
Proof.
  assert ((new_script "MyDataset" [Base_cls] body_concrete module_init).2
          = Ok MyDataset_cls) as Hok by (vm_compute; reflexivity).
  split_and!; [reflexivity|exact Hok|vm_compute; reflexivity|reflexivity|].
  destruct (@new_classification script_env "MyDataset" [Base_cls] body_concrete
              module_init MyDataset_cls eq_refl Hok) as (_ & _ & Hconcrete).
  destruct Hconcrete as (HD & _ & _); [vm_compute; reflexivity|reflexivity|].
  exact HD.
Defined.

Lemma one_table_per_name_witness :
  @is_notebook script_env = false
  ∧ @reachable script_env scenario_state
  ∧ (tables_holding "my_dataset" scenario_state ≤ 1)%nat.
Proof.
  assert (@reachable script_env scenario_state) as Hreach
    by apply run_reachable.
  split_and!; [reflexivity|exact Hreach|].
  exact (proj1 (@one_table_per_name script_env scenario_state "my_dataset"
                  eq_refl Hreach)).
Defined.

(** In a notebook the collision check is skipped: after a dataset and
    then an abstract class named [MyDataset], the name is a key of two
    registries. *)
Lemma one_table_per_name_notebook_counterexample :
  @reachable notebook_env (@run notebook_env redefinition).1
  ∧ tables_holding "my_dataset" (@run notebook_env redefinition).1 = 2%nat
  ∧ ¬ (∀ (E : Externals) g name,
         @reachable E g → (tables_holding name g ≤ 1)%nat).
Proof.
  assert (tables_holding "my_dataset" (@run notebook_env redefinition).1 = 2%nat)
    as Htwo by (vm_compute; reflexivity).
  split_and!; [apply run_reachable|exact Htwo|].
  intros Hall.
  specialize (Hall notebook_env (@run notebook_env redefinition).1 "my_dataset"
                (run_reachable _)).
  rewrite Htwo in Hall. lia.
Qed.

Lemma new_sets_name_witness :
  (new_script "MyDataset" [Base_cls] body_concrete module_init).2 = Ok MyDataset_cls
  ∧ cls_getattr MyDataset_cls "name" = Some (VStr "my_dataset").
Proof.
  assert ((new_script "MyDataset" [Base_cls] body_concrete module_init).2
          = Ok MyDataset_cls) as Hok by (vm_compute; reflexivity).
  split; [exact Hok|].
  exact (proj1 (@new_sets_name script_env "MyDataset" [Base_cls] body_concrete
                  module_init MyDataset_cls Hok)).
Defined.

Lemma new_raise_unchanged_witness :
  (new_script "MyDataset" [Base_cls] body_concrete scenario_state).2
    = Raise (ValueError "Dataset with name my_dataset already registered.")
  ∧ (new_script "MyDataset" [Base_cls] body_concrete scenario_state).1 = scenario_state.
Proof.
  assert ((new_script "MyDataset" [Base_cls] body_concrete scenario_state).2
          = Raise (ValueError "Dataset with name my_dataset already registered."))
    as Hr by (vm_compute; reflexivity).
  split; [exact Hr|].
  exact (@new_raise_unchanged script_env "MyDataset" [Base_cls] body_concrete
           scenario_state _ Hr).
Defined.


(** An exception of the construction is not one of the collision check: a
    [__slots__] that names [name] clashes with the attribute that [__new__]
    writes, and the message of that [ValueError] names no registry. *)
Example slots_clash_names_no_table :
  new_script "Slotted" [Base_cls] (<["__slots__" := VStr "name"]> body_concrete)
    module_init
  = (module_init,
     Raise (ValueError "'name' in __slots__ conflicts with class variable"))
  ∧ table_of_message "'name' in __slots__ conflicts with class variable" = None.
Proof. split; vm_compute; reflexivity. Qed.





Lemma new_success_frame_witness :
  (new_script "Draft" [Base_cls] body_in_development scenario_state).2 = Ok Draft_cls
  ∧ _skip_registration scenario_state = false
  ∧ @target script_env "Draft" [Base_cls] body_in_development = InDevelopment
  ∧ _IN_DEVELOPMENT_REGISTRY
      (new_script "Draft" [Base_cls] body_in_development scenario_state).1
    = <["draft" := Draft_cls]> (_IN_DEVELOPMENT_REGISTRY scenario_state)
  ∧ _DATASET_REGISTRY
      (new_script "Draft" [Base_cls] body_in_development scenario_state).1
    = _DATASET_REGISTRY scenario_state.
Proof.
  assert ((new_script "Draft" [Base_cls] body_in_development scenario_state).2
          = Ok Draft_cls) as Hok by (vm_compute; reflexivity).
  assert (@target script_env "Draft" [Base_cls] body_in_development = InDevelopment)
    as Htarget by (vm_compute; reflexivity).
  split_and!; [exact Hok|reflexivity|exact Htarget| |].
  - destruct (@new_success_frame script_env "Draft" [Base_cls] body_in_development
                scenario_state Draft_cls Hok) as (_ & _ & _ & _ & Hclear).
    destruct (Hclear eq_refl) as (Hins & _ & _).
    rewrite Htarget in Hins. exact Hins.
  - destruct (@new_success_frame script_env "Draft" [Base_cls] body_in_development
                scenario_state Draft_cls Hok) as (_ & _ & _ & _ & Hclear).
    destruct (Hclear eq_refl) as (_ & Hother & _).
    apply (Hother Concrete). rewrite Htarget. discriminate.
Defined.

Lemma nested_guard_registers_witness :
  (@exec script_env
     (WithSkipRegistration
        [WithSkipRegistration []; ClassDef "MyDataset" [Base_cls] body_concrete])
     module_init).2 = Ok tt
  ∧ registered_somewhere "my_dataset"
      (@exec script_env
         (WithSkipRegistration
            [WithSkipRegistration []; ClassDef "MyDataset" [Base_cls] body_concrete])
         module_init).1 = true.
Proof.
  assert ((@exec script_env
             (WithSkipRegistration
                [WithSkipRegistration [];
                 ClassDef "MyDataset" [Base_cls] body_concrete])
             module_init).2 = Ok tt) as Hok by (vm_compute; reflexivity).
  split; [exact Hok|].
  exact (proj2 (@nested_guard_registers script_env [] "MyDataset" [Base_cls]
                  body_concrete module_init Hok)).
Defined.

(** [DraftChild] derives from the in-development [Draft] and inherits its
    marker, but its own body does not set it: it is filed as a dataset. *)
Lemma marker_read_from_body_witness :
  _skip_registration module_init = false
  ∧ (new_script "DraftChild" [Draft_cls] ∅ module_init).2 = Ok DraftChild_cls
  ∧ isabstract DraftChild_cls = false
  ∧ get_truthy ∅ "IN_DEVELOPMENT" = false
  ∧ cls_getattr DraftChild_cls "IN_DEVELOPMENT" = Some (VBool true)
  ∧ _DATASET_REGISTRY (new_script "DraftChild" [Draft_cls] ∅ module_init).1
    = <["draft_child" := DraftChild_cls]> ∅
  ∧ _IN_DEVELOPMENT_REGISTRY (new_script "DraftChild" [Draft_cls] ∅ module_init).1
    = ∅.
Proof.
  assert ((new_script "DraftChild" [Draft_cls] ∅ module_init).2 = Ok DraftChild_cls)
    as Hok by (vm_compute; reflexivity).
  assert (isabstract DraftChild_cls = false) as Habs by (vm_compute; reflexivity).
  pose proof (@marker_read_from_body script_env "DraftChild" [Draft_cls] ∅
                module_init DraftChild_cls eq_refl) as Hbody.
  destruct (Hbody Hok Habs eq_refl) as (HD & HI & _).
  split_and!; [reflexivity|exact Hok|exact Habs|reflexivity
              |vm_compute; reflexivity|exact HD|exact HI].
Defined.

(** A guarded block that raises half-way: nothing is registered, the flag
    is clear again and the exception comes out of the block. *)
Example guarded_block_outcome :
  @exec script_env
    (WithSkipRegistration
       [ ClassDef "MyDataset" [Base_cls] body_concrete;
         RaiseStmt (OtherError "interrupted");
         ClassDef "Draft" [Base_cls] body_in_development ])
    module_init
  = (module_init, Raise (OtherError "interrupted")).
Proof. vm_compute. reflexivity. Qed.

(** The same class name is refused inside a guard as well. *)
Example guarded_collision :
  @exec script_env
    (WithSkipRegistration [ ClassDef "MyDataset" [Base_cls] body_concrete ])
    scenario_state
  = (scenario_state,
     Raise (ValueError "Dataset with name my_dataset already registered.")).
Proof. vm_compute. reflexivity. Qed.

End Samples.

(** ** Invariants of the registries over whole programs *)

Section Invariants.
Context `{Externals}.

Implicit Types (g : Globals) (cls_name name : string)
  (bases : list PyClass) (class_dict : gmap string value).

Lemma table_of_set_skip t b g :
  table_of t (set_skip_registration b g) = table_of t g.
Proof. by destruct t. Qed.

Lemma class_names_with body :
  class_names (WithSkipRegistration body) = block_class_names body.
Proof. reflexivity. Qed.

(** A property of the state that class creations under the permitted class
    names and assignments to the flag keep is kept by every statement and
    block that defines only such names. *)
Lemma exec_preserves (P : Globals → Prop) (ok : string → Prop) :
  (∀ cls_name bases class_dict g,
     ok cls_name → P g →
     P (RegisteredDataset.__new__ cls_name bases class_dict g).1) →
  (∀ b g, P g → P (set_skip_registration b g)) →
  ∀ s, Forall ok (class_names s) → ∀ g, P g → P (exec s g).1.
Proof.
  intros Hnew Hflag s.
  induction s as [cls_name bases class_dict|e|body IH] using stmt_block_ind;
    intros Hok g Hg.
  - rewrite exec_class. simpl. apply Hnew; [|done].
    simpl in Hok. by inversion Hok.
  - done.
  - rewrite exec_with, skip_registration_unfold. simpl. apply Hflag.
    rewrite class_names_with in Hok.
    assert (∀ g0, P g0 → P (exec_block body g0).1) as Hblock.
    { clear g Hg. induction IH as [|s l Hs _ IHl]; intros g0 Hg0; [done|].
      simpl in Hok. apply Forall_app in Hok as [Hoks Hokl].
      rewrite exec_block_cons.
      destruct (exec s g0).2 eqn:Hres; simpl; [apply IHl; [done|]|];
        by apply Hs. }
    apply Hblock. by apply Hflag.
Qed.

Lemma exec_block_preserves (P : Globals → Prop) (ok : string → Prop) :
  (∀ cls_name bases class_dict g,
     ok cls_name → P g →
     P (RegisteredDataset.__new__ cls_name bases class_dict g).1) →
  (∀ b g, P g → P (set_skip_registration b g)) →
  ∀ l, Forall ok (block_class_names l) → ∀ g, P g → P (exec_block l g).1.
Proof.
  intros Hnew Hflag l. induction l as [|s l IH]; intros Hok g Hg; [done|].
  simpl in Hok. apply Forall_app in Hok as [Hoks Hokl].
  rewrite exec_block_cons.
  destruct (exec s g).2 eqn:Hres; simpl; [apply IH; [done|]|];
    by apply (exec_preserves P ok).
Qed.

Lemma Forall_any_name (l : list string) : Forall (λ _, True) l.
Proof. by apply Forall_forall. Qed.

(** Every entry of a registry was put there by [__new__]: it is the class
    built for a class name that normalises to the key, in the registry of
    its kind. *)
Lemma reachable_entries g :
  reachable g →
  ∀ t k c, table_of t g !! k = Some c →
    ∃ cls_name bases class_dict,
      c = built_class cls_name bases class_dict
      ∧ k = camelcase_to_snakecase cls_name
      ∧ t = target cls_name bases class_dict.
Proof.
  induction 1 as [|cls_name bases class_dict g Hg IH|b g Hg IH]; intros t k c.
  - destruct t; simpl; by rewrite lookup_empty.
  - assert (table_of t (filed cls_name bases class_dict g) !! k = Some c →
            ∃ cls_name0 bases0 class_dict0,
              c = built_class cls_name0 bases0 class_dict0
              ∧ k = camelcase_to_snakecase cls_name0
              ∧ t = target cls_name0 bases0 class_dict0) as Hfiled.
    { unfold filed. destruct (_skip_registration g); [apply IH|].
      rewrite table_of_set_table. case_decide as Ht; [|apply IH].
      destruct (decide (camelcase_to_snakecase cls_name = k)) as [<-|Hk].
      - rewrite lookup_insert_eq. intros [= <-]. eauto 6.
      - rewrite lookup_insert_ne by done. apply IH. }
    rewrite new_unfold. destruct (construction_error _ _ _); [apply IH|].
    destruct is_notebook; [exact Hfiled|].
    destruct (collision _ _); [apply IH|exact Hfiled].
  - rewrite table_of_set_skip. apply IH.
Qed.

(** X1. In every reachable state, the class stored under a key of any of
    the three registries has that key as its [name] attribute. *)
Theorem registry_key_is_name g t k c :
  reachable g →
  table_of t g !! k = Some c →
  cls_getattr c "name" = Some (VStr k).
Proof.
  intros Hg Hk.
  destruct (reachable_entries g Hg t k c Hk)
    as (cls_name & bases & class_dict & -> & -> & _).
  apply getattr_own, built_class_name.
Qed.

(** X2. In every reachable state each registry holds only classes of its
    kind: the classes of [_ABSTRACT_DATASET_REGISTRY] are abstract, those of
    the other two are not, and among these the ones with a true
    [IN_DEVELOPMENT] in their own dictionary are exactly the entries of
    [_IN_DEVELOPMENT_REGISTRY]. *)
Theorem registry_holds_its_kind g t k c :
  reachable g →
  table_of t g !! k = Some c →
  isabstract c = bool_decide (t = Abstract)
  ∧ (isabstract c = false →
       get_truthy (cls_dict c) "IN_DEVELOPMENT" = bool_decide (t = InDevelopment)).
Proof.
  intros Hg Hk.
  destruct (reachable_entries g Hg t k c Hk)
    as (cls_name & bases & class_dict & -> & -> & ->).
  unfold target, classify.
  change (cls_dict (built_class cls_name bases class_dict))
    with (named_body cls_name class_dict).
  destruct (isabstract (built_class cls_name bases class_dict)); [done|].
  split; [by destruct (get_truthy _ _)|]. intros _.
  by destruct (get_truthy (named_body cls_name class_dict) "IN_DEVELOPMENT").
Qed.

(** ** The flag between statements *)

Lemma new_keeps_flag cls_name bases class_dict g :
  _skip_registration (RegisteredDataset.__new__ cls_name bases class_dict g).1
    = _skip_registration g.
Proof.
  rewrite new_unfold. destruct (construction_error _ _ _); [done|].
  destruct is_notebook; [apply skip_filed|].
  destruct (collision _ _); [done|apply skip_filed].
Qed.

Lemma exec_flag_clear s g :
  _skip_registration g = false → _skip_registration (exec s g).1 = false.
Proof.
  intros Hclear. destruct s as [cls_name bases class_dict|e|body].
  - rewrite exec_class. simpl. by rewrite new_keeps_flag.
  - done.
  - by rewrite exec_with, skip_registration_unfold.
Qed.

(** X3. A block of statements started with [_skip_registration] clear ends
    with it clear, whatever guards it contains and whether it runs to its
    end or stops at an exception: registration is never left switched off. *)
Theorem flag_clear_after_block prog g :
  _skip_registration g = false →
  _skip_registration (exec_block prog g).1 = false.
Proof.
  revert g. induction prog as [|s l IH]; intros g Hclear; [done|].
  rewrite exec_block_cons.
  destruct (exec s g).2 eqn:Hres; simpl; [apply IH|]; by apply exec_flag_clear.
Qed.

(** ** What a program does to the entries *)

Lemma new_keeps_keys cls_name bases class_dict g t k :
  is_Some (table_of t g !! k) →
  is_Some (table_of t (RegisteredDataset.__new__ cls_name bases class_dict g).1 !! k).
Proof.
  intros Hk.
  assert (is_Some (table_of t (filed cls_name bases class_dict g) !! k)) as Hfiled.
  { unfold filed. destruct (_skip_registration g); [done|].
    rewrite table_of_set_table. case_decide; [|done].
    rewrite lookup_insert. case_decide; [by eexists|done]. }
  rewrite new_unfold. destruct (construction_error _ _ _); [done|].
  destruct is_notebook; [done|].
  by destruct (collision _ _).
Qed.

(** X4. No statement removes a key: a name that is a key of a registry
    before a block of statements is a key of that registry after it, in a
    notebook as well. *)
Theorem keys_never_removed prog g t k :
  is_Some (table_of t g !! k) →
  is_Some (table_of t (exec_block prog g).1 !! k).
Proof.
  apply (exec_block_preserves (λ g0, is_Some (table_of t g0 !! k)) (λ _, True)).
  - intros cls_name bases class_dict g0 _. apply new_keeps_keys.
  - intros b g0. by rewrite table_of_set_skip.
  - apply Forall_any_name.
Qed.

Lemma new_keeps_entries cls_name bases class_dict g t k c :
  is_notebook = false →
  table_of t g !! k = Some c →
  table_of t (RegisteredDataset.__new__ cls_name bases class_dict g).1 !! k = Some c.
Proof.
  intros Hnb Hk. rewrite new_unfold, Hnb.
  destruct (construction_error _ _ _); [done|].
  destruct (collision _ _) eqn:Hcol; [done|]. simpl.
  unfold filed. destruct (_skip_registration g); [done|].
  rewrite table_of_set_table. case_decide as Ht; [|done].
  destruct (decide (camelcase_to_snakecase cls_name = k)) as [<-|Hne].
  - by rewrite (collision_None_tables _ _ t Hcol) in Hk.
  - by rewrite lookup_insert_ne.
Qed.

(** X5. Outside a notebook an entry is never replaced: the class stored
    under a key before a block of statements is the class stored under it
    after the block. *)
Theorem entries_stable_outside_notebook prog g t k c :
  is_notebook = false →
  table_of t g !! k = Some c →
  table_of t (exec_block prog g).1 !! k = Some c.
Proof.
  intros Hnb.
  apply (exec_block_preserves (λ g0, table_of t g0 !! k = Some c) (λ _, True)).
  - intros cls_name bases class_dict g0 _. by apply new_keeps_entries.
  - intros b g0. by rewrite table_of_set_skip.
  - apply Forall_any_name.
Qed.

Lemma new_other_name cls_name bases class_dict g t k :
  camelcase_to_snakecase cls_name ≠ k →
  table_of t (RegisteredDataset.__new__ cls_name bases class_dict g).1 !! k
    = table_of t g !! k.
Proof.
  intros Hne.
  assert (table_of t (filed cls_name bases class_dict g) !! k = table_of t g !! k)
    as Hfiled.
  { unfold filed. destruct (_skip_registration g); [done|].
    rewrite table_of_set_table. case_decide; [|done]. by rewrite lookup_insert_ne. }
  rewrite new_unfold. destruct (construction_error _ _ _); [done|].
  destruct is_notebook; [done|].
  by destruct (collision _ _).
Qed.

(** X6. A block of statements changes the registries only at the
    normalised names of the classes it defines: for any other key, each of
    the three registries gives after the block what it gave before. *)
Theorem other_names_untouched prog g t k :
  Forall (λ cls_name, camelcase_to_snakecase cls_name ≠ k) (block_class_names prog) →
  table_of t (exec_block prog g).1 !! k = table_of t g !! k.
Proof.
  intros Hnames.
  apply (exec_block_preserves
           (λ g0, table_of t g0 !! k = table_of t g !! k)
           (λ cls_name, camelcase_to_snakecase cls_name ≠ k)); [| |done|done].
  - intros cls_name bases class_dict g0 Hne Hg0.
    by rewrite new_other_name.
  - intros b g0. by rewrite table_of_set_skip.
Qed.

(** ** Defining a name twice *)

Lemma collision_set_table t name c g :
  collision name g = None →
  collision name (set_table t name c g) = Some t.
Proof.
  intros (HD & HI & HA)%collision_None_py_in.
  unfold collision.
  destruct t; simpl; rewrite ?py_in_insert, ?decide_True by done;
    by rewrite ?HD, ?HI, ?HA.
Qed.

(** The collision check reads the three registries at the name only. *)
Lemma collision_ext name g g' :
  (∀ t, table_of t g !! name = table_of t g' !! name) →
  collision name g = collision name g'.
Proof.
  intros Hsame. unfold collision, py_in.
  pose proof (Hsame Concrete) as HD. pose proof (Hsame InDevelopment) as HI.
  pose proof (Hsame Abstract) as HA. simpl in HD, HI, HA.
  by rewrite HD, HI, HA.
Qed.

(** Outside a notebook a name that is held is held for good, and by the
    same registries: a creation under it changes nothing, a creation under
    another name does not touch it. *)
Lemma new_keeps_held cls_name bases class_dict g name :
  is_notebook = false →
  is_Some (collision name g) →
  ∀ t, table_of t (RegisteredDataset.__new__ cls_name bases class_dict g).1 !! name
       = table_of t g !! name.
Proof.
  intros Hnb Hheld t.
  destruct (decide (camelcase_to_snakecase cls_name = name)) as [<-|Hne];
    [|by apply new_other_name].
  rewrite new_unfold, Hnb. destruct (construction_error _ _ _); [done|].
  by destruct Hheld as [t' ->].
Qed.

(** X7. Outside a notebook, once a class has been registered (flag clear,
    creation returned), whatever statements run afterwards, every later
    creation of a class whose name normalises to the same key and which
    the interpreter builds raises the [ValueError] that names the registry
    the first class was filed in, inside a [with skip_registration():]
    block as well as outside. *)
Theorem second_definition_raises cls_name bases class_dict g cls prog
    cls_name' bases' class_dict' (skip : bool) :
  is_notebook = false →
  _skip_registration g = false →
  (RegisteredDataset.__new__ cls_name bases class_dict g).2 = Ok cls →
  camelcase_to_snakecase cls_name' = camelcase_to_snakecase cls_name →
  construction_error cls_name' bases' (named_body cls_name' class_dict') = None →
  (RegisteredDataset.__new__ cls_name' bases' class_dict'
     (set_skip_registration skip
        (exec_block prog
           (RegisteredDataset.__new__ cls_name bases class_dict g).1).1)).2
  = Raise (ValueError (message_of_table (target cls_name bases class_dict)
                         (camelcase_to_snakecase cls_name))).
Proof.
  intros Hnb Hclear Hok Hsame Hbuilt.
  pose proof (new_Ok_no_collision _ _ _ _ _ Hnb Hok) as Hcol.
  destruct (new_Ok_inv _ _ _ _ _ Hok) as [-> _].
  unfold filed. rewrite Hclear.
  set (name := camelcase_to_snakecase cls_name) in *.
  set (g1 := set_table (target cls_name bases class_dict) name
               (built_class cls_name bases class_dict) g).
  assert (collision name g1 = Some (target cls_name bases class_dict)) as Hheld
    by by apply collision_set_table.
  assert (∀ t, table_of t (exec_block prog g1).1 !! name = table_of t g1 !! name)
    as Hkept.
  { apply (exec_block_preserves
             (λ g0, ∀ t, table_of t g0 !! name = table_of t g1 !! name)
             (λ _, True)); [| | |done].
    - intros n b d g0 _ Hg0 t.
      rewrite <- Hg0. apply new_keeps_held; [done|].
      rewrite (collision_ext name g0 g1 Hg0), Hheld. by eexists.
    - intros b g0 Hg0 t. by rewrite table_of_set_skip.
    - apply Forall_any_name. }
  rewrite new_unfold, Hbuilt, Hnb, Hsame. fold name.
  rewrite (collision_ext name _ g1).
  - by rewrite Hheld.
  - intros t. by rewrite table_of_set_skip.
Qed.


End Invariants.

(** ** The invariants on the sample classes *)

Lemma registry_key_is_name_witness :
  @reachable script_env scenario_state
  ∧ table_of Concrete scenario_state !! "my_dataset" = Some MyDataset_cls
  ∧ cls_getattr MyDataset_cls "name" = Some (VStr "my_dataset").
Proof.
  assert (@reachable script_env scenario_state) as Hreach by apply run_reachable.
  assert (table_of Concrete scenario_state !! "my_dataset" = Some MyDataset_cls)
    as Hk by (vm_compute; reflexivity).
  split_and!; [exact Hreach|exact Hk|].
  exact (@registry_key_is_name script_env scenario_state Concrete "my_dataset"
           MyDataset_cls Hreach Hk).
Defined.

Lemma registry_holds_its_kind_witness :
  @reachable script_env scenario_state
  ∧ table_of Abstract scenario_state !! "base" = Some Base_cls
  ∧ isabstract Base_cls = true.
Proof.
  assert (@reachable script_env scenario_state) as Hreach by apply run_reachable.
  assert (table_of Abstract scenario_state !! "base" = Some Base_cls)
    as Hk by (vm_compute; reflexivity).
  split_and!; [exact Hreach|exact Hk|].
  exact (proj1 (@registry_holds_its_kind script_env scenario_state Abstract "base"
                  Base_cls Hreach Hk)).
Defined.

Lemma flag_clear_after_block_witness :
  _skip_registration scenario_state = false
  ∧ (@exec_block script_env
       [ WithSkipRegistration
           [ ClassDef "Draft" [Base_cls] body_in_development;
             RaiseStmt (OtherError "interrupted") ];
         ClassDef "Draft" [Base_cls] body_in_development ]
       scenario_state).2 = Raise (OtherError "interrupted")
  ∧ _skip_registration
      (@exec_block script_env
         [ WithSkipRegistration
             [ ClassDef "Draft" [Base_cls] body_in_development;
               RaiseStmt (OtherError "interrupted") ];
           ClassDef "Draft" [Base_cls] body_in_development ]
         scenario_state).1 = false.
Proof.
  split_and!; [reflexivity|vm_compute; reflexivity|].
  exact (@flag_clear_after_block script_env _ scenario_state eq_refl).
Defined.

Lemma keys_never_removed_witness :
  is_Some (table_of Concrete
             (@run notebook_env [ClassDef "MyDataset" [] body_concrete]).1
             !! "my_dataset")
  ∧ is_Some (table_of Concrete
               (@exec_block notebook_env [ClassDef "MyDataset" [] body_abstract]
                  (@run notebook_env [ClassDef "MyDataset" [] body_concrete]).1).1
               !! "my_dataset").
Proof.
  assert (is_Some (table_of Concrete
                     (@run notebook_env [ClassDef "MyDataset" [] body_concrete]).1
                     !! "my_dataset")) as Hk by (vm_compute; eexists; reflexivity).
  split; [exact Hk|].
  exact (@keys_never_removed notebook_env [ClassDef "MyDataset" [] body_abstract]
           _ Concrete "my_dataset" Hk).
Defined.

Lemma entries_stable_outside_notebook_witness :
  @is_notebook script_env = false
  ∧ table_of Concrete scenario_state !! "my_dataset" = Some MyDataset_cls
  ∧ table_of Concrete
      (@exec_block script_env
         [ ClassDef "Draft" [Base_cls] body_in_development;
           ClassDef "MyDataset" [] body_abstract ]
         scenario_state).1 !! "my_dataset" = Some MyDataset_cls.
Proof.
  assert (table_of Concrete scenario_state !! "my_dataset" = Some MyDataset_cls)
    as Hk by (vm_compute; reflexivity).
  split_and!; [reflexivity|exact Hk|].
  exact (@entries_stable_outside_notebook script_env _ scenario_state Concrete
           "my_dataset" MyDataset_cls eq_refl Hk).
Defined.

Lemma other_names_untouched_witness :
  Forall (λ cls_name, sample_snakecase cls_name ≠ "my_dataset")
         (block_class_names [ClassDef "Draft" [Base_cls] body_in_development])
  ∧ table_of Concrete
      (@exec_block script_env [ClassDef "Draft" [Base_cls] body_in_development]
         scenario_state).1 !! "my_dataset"
    = table_of Concrete scenario_state !! "my_dataset".
Proof.
  assert (Forall (λ cls_name, sample_snakecase cls_name ≠ "my_dataset")
            (block_class_names [ClassDef "Draft" [Base_cls] body_in_development]))
    as Hnames.
  { simpl. constructor; [|constructor].
    intros Heq. vm_compute in Heq. discriminate Heq. }
  split; [exact Hnames|].
  exact (@other_names_untouched script_env _ scenario_state Concrete "my_dataset"
           Hnames).
Defined.

Lemma second_definition_raises_witness :
  @is_notebook script_env = false
  ∧ _skip_registration module_init = false
  ∧ (new_script "MyDataset" [Base_cls] body_concrete module_init).2 = Ok MyDataset_cls
  ∧ sample_snakecase "MyDataset" = sample_snakecase "MyDataset"
  ∧ @construction_error script_env "MyDataset" []
       (@named_body script_env "MyDataset" body_abstract) = None
  ∧ (new_script "MyDataset" [] body_abstract
       (set_skip_registration true
          (@exec_block script_env
             [ ClassDef "Base" [] body_abstract;
               WithSkipRegistration
                 [ ClassDef "Draft" [Base_cls] body_in_development ];
               ClassDef "Draft" [Base_cls] body_in_development ]
             (new_script "MyDataset" [Base_cls] body_concrete module_init).1).1)).2
    = Raise (ValueError "Dataset with name my_dataset already registered.").
Proof.
  assert ((new_script "MyDataset" [Base_cls] body_concrete module_init).2
          = Ok MyDataset_cls) as Hok by (vm_compute; reflexivity).
  assert (@construction_error script_env "MyDataset" []
            (@named_body script_env "MyDataset" body_abstract) = None)
    as Hbuilt by (vm_compute; reflexivity).
  split_and!; [reflexivity|reflexivity|exact Hok|reflexivity|exact Hbuilt|].
  pose proof (@second_definition_raises script_env "MyDataset" [Base_cls]
                body_concrete module_init MyDataset_cls
                [ ClassDef "Base" [] body_abstract;
                  WithSkipRegistration
                    [ ClassDef "Draft" [Base_cls] body_in_development ];
                  ClassDef "Draft" [Base_cls] body_in_development ]
                "MyDataset" [] body_abstract true
                eq_refl eq_refl Hok eq_refl Hbuilt) as Hraise.
  etransitivity; [exact Hraise|]. vm_compute. reflexivity.
Defined.

